(** * vmwareguest-exporter: the Collector of main.go, embedded and verified

    The exporter is one Go file.  Its logic is the [Collector] with its two
    methods [Collect] and [Describe], the unit helpers ([mbmetric],
    [mzmetric], [unmetric], [msmetric]), [metric.Get], [prometheus_name]
    and the static [metrics] table.

    Go values are embedded as follows:
    - [int] is a 64-bit two's complement integer (the exporter is built
      for amd64): a [Z] with the wrap-around of [++] written out
      ([int_wrap]);
    - [float64] is the primitive binary64 [float] of the kernel, so that
      products such as [2048 * 0.001] are the IEEE ones;
    - [error] is [option string] ([None] is [nil]);
    - a method that writes to a channel, logs, increments a field of the
      receiver, calls into the guest library or ends the process is a
      computation in the monad [Proc]. *)

From Stdlib Require Import ZArith String List Bool Lia.
From Corelib Require Import PrimFloat SpecFloat FloatOps.
Import ListNotations.

Set Warnings "-inexact-float".
Local Open Scope Z_scope.
Local Open Scope string_scope.
Local Open Scope list_scope.

(** ** Go base types *)

Definition error := option string.

Definition int := Z.
Definition max_int : Z := 2 ^ 63 - 1.
Definition min_int : Z := - 2 ^ 63.

(** The value a 64-bit signed register holds for the mathematical integer [z]. *)
Definition int_wrap (z : Z) : int := (z + 2 ^ 63) mod 2 ^ 64 - 2 ^ 63.

(** [x++] on an [int]. *)
Definition int_incr (x : int) : int := int_wrap (x + 1).

Definition uint32 := Z.
Definition uint64 := Z.

Definition float64 := float.

(** The conversion [float64(n)] of an integer: round to nearest, ties to even. *)
Definition float64_of_Z (n : Z) : float64 :=
  SF2Prim (binary_normalize prec emax n 0 false).

(** ** github.com/prometheus/client_golang/prometheus, as far as main.go uses it *)

Module prometheus.

Inductive ValueType := CounterValue | GaugeValue | UntypedValue.

Record Desc := mkDesc {
  fqName : string;
  help : string;
  variableLabels : list string;
  constLabels : list (string * string)
}.

Definition NewDesc (fqName help : string) (variableLabels : list string)
  (constLabels : list (string * string)) : Desc :=
  mkDesc fqName help variableLabels constLabels.

(** A constant metric: what one [ch <- ...] of [Collect] carries. *)
Record Metric := mkMetric {
  metric_desc : Desc;
  metric_type : ValueType;
  metric_value : float64
}.

(** main.go passes no label values and every descriptor it builds has no
    variable labels, so the arity check of the library cannot fail. *)
Definition MustNewConstMetric (d : Desc) (t : ValueType) (v : float64) : Metric :=
  mkMetric d t v.

End prometheus.
Import prometheus.

(** ** github.com/ncabatoff/go-vmguestlib/vmguestlib: the interface main.go calls

    The library is external.  A session is a handle on native state; every
    call may read and update that state and answers with a Go pair
    (value, error).  [uint32] and [uint64] answers are carried as [Z];
    main.go does no arithmetic on them before the conversion to
    [float64], and nothing below depends on their range. *)

Module vmguestlib.

Class Lib := {
  Session : Type;
  NewSession : option Session * error;
  RefreshInfo : Session -> (bool * error) * Session;
  GetHostMemUnmapped : Session -> (uint64 * error) * Session;
  GetHostMemMapped : Session -> (uint64 * error) * Session;
  GetHostMemKernOvhd : Session -> (uint64 * error) * Session;
  GetHostMemPhysFree : Session -> (uint64 * error) * Session;
  GetHostMemPhys : Session -> (uint64 * error) * Session;
  GetHostMemUsed : Session -> (uint64 * error) * Session;
  GetHostMemShared : Session -> (uint64 * error) * Session;
  GetHostMemSwapped : Session -> (uint64 * error) * Session;
  GetHostCPUUsed : Session -> (uint64 * error) * Session;
  GetCPUUsed : Session -> (uint64 * error) * Session;
  GetMemTargetSize : Session -> (uint64 * error) * Session;
  GetCPUStolen : Session -> (uint64 * error) * Session;
  GetTimeElapsed : Session -> (uint64 * error) * Session;
  GetHostNumCPUCores : Session -> (uint32 * error) * Session;
  GetMemUsed : Session -> (uint32 * error) * Session;
  GetMemSharedSaved : Session -> (uint32 * error) * Session;
  GetMemShared : Session -> (uint32 * error) * Session;
  GetMemSwapped : Session -> (uint32 * error) * Session;
  GetMemBallooned : Session -> (uint32 * error) * Session;
  GetMemOverhead : Session -> (uint32 * error) * Session;
  GetMemActive : Session -> (uint32 * error) * Session;
  GetMemMapped : Session -> (uint32 * error) * Session;
  GetMemShares : Session -> (uint32 * error) * Session;
  GetMemLimit : Session -> (uint32 * error) * Session;
  GetMemReservation : Session -> (uint32 * error) * Session;
  GetHostProcessorSpeed : Session -> (uint32 * error) * Session;
  GetCPUShares : Session -> (uint32 * error) * Session;
  GetCPULimit : Session -> (uint32 * error) * Session;
  GetCPUReservation : Session -> (uint32 * error) * Session
}.

End vmguestlib.
Import vmguestlib.

(** ** The process model: what a method call of the exporter can do *)

Section Exporter.

Context {L : Lib}.

(** [type Collector struct]: [session] is a pointer, [None] when nil; the
    pointee is the library's state. *)
Record Collector := mkCollector {
  session : option Session;
  errors : int;
  events : int
}.

(** The receiver, the channel the method writes to (oldest first) and the
    lines given to the [log] package. *)
Record Frame (Out : Type) := mkFrame {
  self : Collector;
  ch : list Out;
  log : list string
}.
Arguments mkFrame {Out}.
Arguments self {Out}.
Arguments ch {Out}.
Arguments log {Out}.

(** How a call ends: it returns, the process exits ([os.Exit]), or the
    runtime panics. *)
Inductive Result (A : Type) :=
| Return (a : A)
| Exit (code : Z)
| Panic (msg : string).
Arguments Return {A}.
Arguments Exit {A}.
Arguments Panic {A}.

Definition Proc (Out A : Type) := Frame Out -> Result A * Frame Out.

Definition ret {Out A} (a : A) : Proc Out A := fun st => (Return a, st).

Definition bind {Out A B} (m : Proc Out A) (k : A -> Proc Out B) : Proc Out B :=
  fun st =>
    match m st with
    | (Return a, st') => k a st'
    | (Exit code, st') => (Exit code, st')
    | (Panic msg, st') => (Panic msg, st')
    end.

(** Read the receiver [*c]. *)
Definition load {Out} : Proc Out Collector := fun st => (Return (self st), st).

(** [ch <- x] *)
Definition send {Out} (x : Out) : Proc Out unit :=
  fun st => (Return tt, mkFrame (self st) (ch st ++ [x]) (log st)).

(** [log.Printf], with the formatted line as argument. *)
Definition log_Printf {Out} (line : string) : Proc Out unit :=
  fun st => (Return tt, mkFrame (self st) (ch st) (log st ++ [line])).

(** [os.Exit(code)] *)
Definition os_Exit {Out A} (code : Z) : Proc Out A := fun st => (Exit code, st).

(** [c.events++] *)
Definition incr_events {Out} : Proc Out unit :=
  fun st =>
    let c := self st in
    (Return tt, mkFrame (mkCollector (session c) (errors c) (int_incr (events c))) (ch st) (log st)).

(** [c.errors++] *)
Definition incr_errors {Out} : Proc Out unit :=
  fun st =>
    let c := self st in
    (Return tt, mkFrame (mkCollector (session c) (int_incr (errors c)) (events c)) (ch st) (log st)).

(** A library call on [c.session]; on a nil pointer the call panics. *)
Definition call_session {Out R} (f : Session -> R * Session) : Proc Out R :=
  fun st =>
    let c := self st in
    match session c with
    | None => (Panic "invalid memory address or nil pointer dereference", st)
    | Some s =>
        let (r, s') := f s in
        (Return r, mkFrame (mkCollector (Some s') (errors c) (events c)) (ch st) (log st))
    end.

(** [xs[i]]; out of range the runtime panics. *)
Definition index {Out A} (xs : list A) (i : nat) : Proc Out A :=
  fun st =>
    match nth_error xs i with
    | Some x => (Return x, st)
    | None => (Panic "index out of range", st)
    end.

End Exporter.

Arguments mkFrame {L Out}.
Arguments self {L Out}.
Arguments ch {L Out}.
Arguments log {L Out}.
Arguments Return {A}.
Arguments Exit {A}.
Arguments Panic {A}.

Declare Scope proc_scope.
Delimit Scope proc_scope with proc.
Notation "x <- m ;; k" := (bind m (fun x => k))
  (at level 61, m at next level, right associativity) : proc_scope.
Notation "' p <- m ;; k" := (bind m (fun x => let 'p := x in k))
  (at level 61, p pattern, m at next level, right associativity) : proc_scope.
Notation "m ;; k" := (bind m (fun _ => k))
  (at level 61, right associativity) : proc_scope.
Local Open Scope proc_scope.

(** ** main.go *)

Definition metric_name_pfx : string := "vmwareguest_".

Definition isGuestDesc : Desc :=
  NewDesc "vmwareguest_isguest"
    "1 if running on a vmware guest with tools installed, 0 otherwise" [] [].

Definition collecterrsDesc : Desc :=
  NewDesc "vmwareguest_collecterrors" "errors harvesting metrics" [] [].

Definition eventsDesc : Desc :=
  NewDesc "vmwareguest_events" "events e.g. snapshot, vmotion, etc" [] [].

Section Main.

Context {L : Lib}.

(** [getf64] is an interface with two implementations, the function types
    [getu32] and [getu64]. *)
Inductive getf64 :=
| getu32 (g : Session -> (uint32 * error) * Session)
| getu64 (g : Session -> (uint64 * error) * Session).

(** [func (g getu32) Get] and [func (g getu64) Get] *)
Definition getf64_Get (g : getf64) (s : Session) : (float64 * error) * Session :=
  match g with
  | getu32 g =>
      let '((u32, err), s') := g s in
      match err with
      | Some e => ((0%float, Some e), s')
      | None => ((float64_of_Z u32, None), s')
      end
  | getu64 g =>
      let '((u64, err), s') := g s in
      match err with
      | Some e => ((0%float, Some e), s')
      | None => ((float64_of_Z u64, None), s')
      end
  end.

Record metric := mkmetric {
  getter : getf64;
  name : string;
  desc : string;
  multiplier : float64;
  unit : string;
  ValueType_of : ValueType
}.

(** [func (m metric) Get] *)
Definition metric_Get (m : metric) (s : Session) : (float64 * error) * Session :=
  let '((val, err), s') := getf64_Get (getter m) s in
  match err with
  | Some e => ((0%float, Some e), s')
  | None => ((PrimFloat.mul val (multiplier m), None), s')
  end.

(** A metric whose underlying value is given in MBs. *)
Definition mbmetric (getter : getf64) (name desc : string) : metric :=
  mkmetric getter name desc (float64_of_Z (1024 * 1024)) "bytes" GaugeValue.

(** A metric whose underlying value is given in MHz. *)
Definition mzmetric (getter : getf64) (name desc : string) : metric :=
  mkmetric getter name desc (float64_of_Z (1024 * 1024)) "hertz" GaugeValue.

(** A metric whose underlying value is given in some unspecified unit. *)
Definition unmetric (getter : getf64) (name desc : string) : metric :=
  mkmetric getter name desc (float64_of_Z 1) "" GaugeValue.

(** A metric whose underlying value is given in milliseconds; all of them
    are taken to be counters. *)
Definition msmetric (getter : getf64) (name desc : string) : metric :=
  mkmetric getter name desc 0.001%float "seconds" CounterValue.

Definition prometheus_name (gm : metric) : string :=
  let name := (metric_name_pfx ++ name gm)%string in
  if String.eqb (unit gm) "" then name else (name ++ ("_" ++ unit gm))%string.

Definition metrics : list metric := [
  mbmetric (getu64 GetHostMemUnmapped) "HostMemUnmapped"
    "total amount of unmapped memory on the host";
  mbmetric (getu64 GetHostMemMapped) "HostMemMapped"
    "total amount of mapped memory on the host";
  mbmetric (getu64 GetHostMemKernOvhd) "HostMemKernOvhd"
    "total amount of host kernel memory overhead";
  mbmetric (getu64 GetHostMemPhysFree) "HostMemPhysFree"
    "total amount of physical memory free on host";
  mbmetric (getu64 GetHostMemPhys) "HostMemPhys"
    "total amount of memory available to the host OS kernel";
  mbmetric (getu64 GetHostMemUsed) "HostMemUsed"
    "total amount of consumed memory on the host";
  mbmetric (getu64 GetHostMemShared) "HostMemShared"
    "total amount of COW (Copy-On-Write) memory on the host";
  mbmetric (getu64 GetHostMemSwapped) "HostMemSwapped"
    "total amount of memory swapped out on the host";
  msmetric (getu64 GetHostCPUUsed) "HostCPUUsed"
    "total CPU time used by host.";
  msmetric (getu64 GetCPUUsed) "CPUUsed"
    "time during which the virtual machine has been using the CPU.";
  mbmetric (getu64 GetMemTargetSize) "MemTargetSize"
    "memory target Size";
  msmetric (getu64 GetCPUStolen) "CPUStolen"
    "time that the VM was runnable but not scheduled to run.";
  msmetric (getu64 GetTimeElapsed) "TimeElapsed"
    "real time passed since the virtual machine started running on the current host system.";
  unmetric (getu32 GetHostNumCPUCores) "HostNumCPUCores"
    "number of physical CPU cores on the host machine.";
  mbmetric (getu32 GetMemUsed) "MemUsed"
    "estimated amount of physical host memory currently consumed for this virtual machine's physical memory.";
  mbmetric (getu32 GetMemSharedSaved) "MemSharedSaved"
    "estimated amount of physical memory on the host saved from copy-on-write (COW) shared guest physical memory.";
  mbmetric (getu32 GetMemShared) "MemShared"
    "physical memory associated with this virtual machine that is copy-on-write (COW) shared on the host.";
  mbmetric (getu32 GetMemSwapped) "MemSwapped"
    "memory associated with this virtual machine that has been swapped by the host system.";
  mbmetric (getu32 GetMemBallooned) "MemBallooned"
    "memory that has been reclaimed from this virtual machine via the VMware Memory Balloon mechanism.";
  mbmetric (getu32 GetMemOverhead) "MemOverhead"
    "overhead memory associated with this virtual machine consumed on the host system.";
  mbmetric (getu32 GetMemActive) "MemActive"
    "estimated amount of memory the virtual machine is actively using.";
  mbmetric (getu32 GetMemMapped) "MemMapped"
    "mapped memory size of this virtual machine.";
  unmetric (getu32 GetMemShares) "MemShares"
    "number of memory shares allocated to the virtual machine.";
  mbmetric (getu32 GetMemLimit) "MemLimit"
    "maximum amount of memory that is available to the virtual machine.";
  mbmetric (getu32 GetMemReservation) "MemReservation"
    "minimum amount of memory that is available to the virtual machine.";
  mzmetric (getu32 GetHostProcessorSpeed) "HostProcessorSpeed"
    "host processor speed.";
  unmetric (getu32 GetCPUShares) "CPUShares"
    "number of CPU shares allocated to the virtual machine.";
  mzmetric (getu32 GetCPULimit) "CPULimit"
    "maximum processing power available to the virtual machine.";
  mzmetric (getu32 GetCPUReservation) "CPUReservation"
    "minimum processing power available to the virtual machine."
].

(** [func init()]: [descs] starts nil and gets one descriptor appended per
    table entry. *)
Definition init (descs : list Desc) : list Desc :=
  fold_left
    (fun descs m => descs ++ [NewDesc (prometheus_name m) (desc m) [] []])
    metrics descs.

(** [var descs], as [init] leaves it before [main] runs. *)
Definition descs : list Desc := init [].

(** [func NewCollector()], returning the collector and the error of
    [NewSession]; [errors] and [events] get the zero value. *)
Definition NewCollector : Collector * error :=
  let '(s, err) := NewSession in
  let s := match err with Some _ => None | None => s end in
  (mkCollector s 0 0, err).

(** [for i, x := range xs { body }] *)
Fixpoint for_range {Out A} (i : nat) (xs : list A) (body : nat -> A -> Proc Out Datatypes.unit)
  : Proc Out Datatypes.unit :=
  match xs with
  | [] => ret tt
  | x :: xs' => body i x ;; for_range (S i) xs' body
  end.

(** The body of the loop of [Collect]. *)
Definition collect_metric (i : nat) (m : metric) : Proc Metric Datatypes.unit :=
  '(val, err) <- call_session (metric_Get m) ;;
  match err with
  | Some _ => incr_errors
  | None =>
      d <- index descs i ;;
      send (MustNewConstMetric d (ValueType_of m) val)
  end.

(** [func (c *Collector) Collect(ch chan<- prometheus.Metric)] *)
Definition Collect : Proc Metric Datatypes.unit :=
  c <- load ;;
  let isguest := match session c with Some _ => 1 | None => 0 end in
  send (MustNewConstMetric isGuestDesc GaugeValue (float64_of_Z isguest)) ;;
  c <- load ;;
  match session c with
  | None => ret tt
  | Some _ =>
      '(event, err) <- call_session RefreshInfo ;;
      match err with
      | Some e =>
          log_Printf ("An error occured: " ++ e)%string ;;
          os_Exit 1
      | None => if (event : bool) then incr_events else ret tt
      end ;;
      for_range 0 metrics collect_metric ;;
      c <- load ;;
      send (MustNewConstMetric eventsDesc CounterValue (float64_of_Z (events c))) ;;
      c <- load ;;
      send (MustNewConstMetric collecterrsDesc CounterValue (float64_of_Z (errors c)))
  end.

(** [func (c *Collector) Describe(ch chan<- *prometheus.Desc)] *)
Definition Describe : Proc Desc Datatypes.unit :=
  send isGuestDesc ;;
  c <- load ;;
  match session c with
  | None => ret tt
  | Some _ =>
      for_range 0 descs (fun _ d => send d) ;;
      send eventsDesc ;;
      send collecterrsDesc
  end.

(** One call of a method on the collector [c], on an empty channel. *)
Definition run {Out A} (p : Proc Out A) (c : Collector) : Result A * Frame Out :=
  p (mkFrame c [] []).

End Main.

(** ** What a scrape is expected to produce, in terms of the library's answers *)

Section Scrape.

Context {L : Lib}.

(** The descriptor [init] registers for a table entry. *)
Definition desc_of (m : metric) : Desc :=
  NewDesc (prometheus_name m) (desc m) [] [].

(** The answers [m.Get] gives along the table, each call starting from the
    session as the previous one left it, and the session after the last. *)
Fixpoint readings (ms : list metric) (s : Session) : list (float64 * error) * Session :=
  match ms with
  | [] => ([], s)
  | m :: ms' =>
      let (r, s') := metric_Get m s in
      let (rs, s'') := readings ms' s' in
      (r :: rs, s'')
  end.

(** The answers of the getters themselves along the table, before
    [metric.Get] applies the multiplier. *)
Fixpoint raw_readings (ms : list metric) (s : Session) : list (float64 * error) :=
  match ms with
  | [] => []
  | m :: ms' =>
      let (r, s') := getf64_Get (getter m) s in
      r :: raw_readings ms' s'
  end.

Definition failed (r : float64 * error) : bool :=
  match snd r with Some _ => true | None => false end.

(** The number of answers that carry an error. *)
Definition failures (rs : list (float64 * error)) : nat :=
  List.length (filter failed rs).

(** The sample of one table entry: none when its getter failed. *)
Definition sample (m : metric) (r : float64 * error) : list Metric :=
  if failed r then [] else [MustNewConstMetric (desc_of m) (ValueType_of m) (fst r)].

Fixpoint table_samples (ms : list metric) (rs : list (float64 * error)) : list Metric :=
  match ms, rs with
  | m :: ms', r :: rs' => sample m r ++ table_samples ms' rs'
  | _, _ => []
  end.

(** The three samples [Collect] builds from fixed descriptors. *)
Definition isguest_sample (v : float64) : Metric :=
  MustNewConstMetric isGuestDesc GaugeValue v.

Definition events_sample (c : Collector) : Metric :=
  MustNewConstMetric eventsDesc CounterValue (float64_of_Z (events c)).

Definition errors_sample (c : Collector) : Metric :=
  MustNewConstMetric collecterrsDesc CounterValue (float64_of_Z (errors c)).

(** The name the specification gives a table entry: prefix, base name and,
    when there is a unit, an underscore and the unit. *)
Definition spec_name (m : metric) : string :=
  ("vmwareguest_" ++ name m ++ (if String.eqb (unit m) "" then "" else "_" ++ unit m))%string.

(** No name occurs twice in [xs]. *)
Fixpoint distinctb (xs : list string) : bool :=
  match xs with
  | [] => true
  | x :: xs' => negb (existsb (String.eqb x) xs') && distinctb xs'
  end.

(** Every name the exporter registers: the three fixed ones and the table's. *)
Definition exported_names : list string :=
  fqName isGuestDesc :: fqName eventsDesc :: fqName collecterrsDesc
  :: map prometheus_name metrics.

(** The collector states a process goes through: [lifetime n c c'] when [n]
    scrapes in a row, each returning, lead from [c] to [c']. *)
Inductive lifetime : nat -> Collector -> Collector -> Prop :=
| lifetime_start c : lifetime 0 c c
| lifetime_scrape n c c' st :
    lifetime n c c' ->
    run Collect c' = (Return tt, st) ->
    lifetime (S n) c (self st).

End Scrape.

(** ** A test double of the guest library

    A session of the double answers a refresh with a fixed event flag and
    error, and fails exactly the getters whose table position is in
    [broken]; the others read [reading].  A refresh bumps [generation]. *)

Module fake.

Record session := mksession {
  generation : Z;
  refresh_event : bool;
  refresh_err : error;
  broken : list nat;
  reading : Z
}.

Definition refresh (s : session) : (bool * error) * session :=
  ((refresh_event s, refresh_err s),
   mksession (generation s + 1) (refresh_event s) (refresh_err s) (broken s) (reading s)).

Definition get (k : nat) (s : session) : (Z * error) * session :=
  if existsb (Nat.eqb k) (broken s)
  then ((0, Some "stat not available"), s)
  else ((reading s, None), s).

(** A healthy guest: nothing fails, no event pending, every stat reads 2048. *)
Definition healthy : session := mksession 0 false None [] 2048.

(** The same guest with the getter at table position 5 (HostMemUsed) failing. *)
Definition one_broken : session := mksession 0 false None [5%nat] 2048.

(** A guest that went through a migration since the last refresh. *)
Definition migrated : session := mksession 0 true None [] 2048.

(** A guest whose refresh fails. *)
Definition stale : session := mksession 0 false (Some "VMGuestLib_UpdateInfo failed") [] 2048.

(** The double, for a given outcome of [NewSession]. *)
Definition lib_with (opened : option session * error) : Lib := {|
  Session := session;
  NewSession := opened;
  RefreshInfo := refresh;
  GetHostMemUnmapped := get 0;
  GetHostMemMapped := get 1;
  GetHostMemKernOvhd := get 2;
  GetHostMemPhysFree := get 3;
  GetHostMemPhys := get 4;
  GetHostMemUsed := get 5;
  GetHostMemShared := get 6;
  GetHostMemSwapped := get 7;
  GetHostCPUUsed := get 8;
  GetCPUUsed := get 9;
  GetMemTargetSize := get 10;
  GetCPUStolen := get 11;
  GetTimeElapsed := get 12;
  GetHostNumCPUCores := get 13;
  GetMemUsed := get 14;
  GetMemSharedSaved := get 15;
  GetMemShared := get 16;
  GetMemSwapped := get 17;
  GetMemBallooned := get 18;
  GetMemOverhead := get 19;
  GetMemActive := get 20;
  GetMemMapped := get 21;
  GetMemShares := get 22;
  GetMemLimit := get 23;
  GetMemReservation := get 24;
  GetHostProcessorSpeed := get 25;
  GetCPUShares := get 26;
  GetCPULimit := get 27;
  GetCPUReservation := get 28
|}.

(** A host that is a guest with the tools installed. *)
Definition lib : Lib := lib_with (Some healthy, None).

(** A collector of that host, on the session [s]. *)
Definition guest (s : session) (er ev : int) : @Collector lib :=
  @mkCollector lib (Some s) er ev.

(** A host on which no session can be opened. *)
Definition nolib : Lib := lib_with (None, Some "VMGuestLib_OpenHandle failed").

(** A guest that reports an event at every refresh. *)
Definition restless : Lib := lib_with (Some migrated, None).

End fake.

(** ** Arithmetic of [int] *)

Lemma int_wrap_small (z : Z) : min_int <= z <= max_int -> int_wrap z = z.
Proof.
  unfold int_wrap, min_int, max_int. intros H.
  rewrite Z.mod_small by lia. lia.
Qed.

Lemma int_incr_small (x : int) : min_int <= x < max_int -> int_incr x = x + 1.
Proof.
  intros H. unfold int_incr. apply int_wrap_small. lia.
Qed.

Lemma int_incr_max : int_incr max_int = min_int.
Proof. reflexivity. Qed.

Lemma iter_int_incr_small (n : nat) (x : int) :
  min_int <= x -> x + Z.of_nat n <= max_int ->
  Nat.iter n int_incr x = x + Z.of_nat n.
Proof.
  induction n as [|n IH]; intros Hlo Hhi.
  - simpl. lia.
  - rewrite Nat.iter_succ, IH by lia.
    rewrite int_incr_small; lia.
Qed.

(** ** The loop of [Collect] and the table of descriptors *)

Section Loop.

Context {L : Lib}.

Lemma init_app (ms : list metric) (acc : list Desc) :
  fold_left (fun descs m => descs ++ [NewDesc (prometheus_name m) (desc m) [] []]) ms acc
  = acc ++ map desc_of ms.
Proof.
  revert acc. induction ms as [|m ms IH]; intros acc; simpl.
  - now rewrite app_nil_r.
  - rewrite IH, <- app_assoc. reflexivity.
Qed.

Lemma descs_map : descs = map desc_of metrics.
Proof. unfold descs, init. now rewrite init_app. Qed.

Lemma descs_length : List.length descs = List.length metrics.
Proof. rewrite descs_map. apply length_map. Qed.

Lemma descs_nth (i : nat) (m : metric) :
  nth_error metrics i = Some m -> nth_error descs i = Some (desc_of m).
Proof.
  intros H. rewrite descs_map, nth_error_map, H. reflexivity.
Qed.

Lemma readings_length (ms : list metric) (s : Session) :
  List.length (fst (readings ms s)) = List.length ms.
Proof.
  revert s. induction ms as [|m ms IH]; intros s; simpl; [reflexivity|].
  destruct (metric_Get m s) as [r s'].
  specialize (IH s'). destruct (readings ms s') as [rs s'']. simpl in *. now rewrite IH.
Qed.

(** The loop over a part [ms] of the table that sits at position [i]: it
    returns, counts one error per failed answer and sends the samples of
    the others, in table order. *)
Lemma for_range_collect (ms : list metric) :
  forall (i : nat) (s : Session) (er ev : int) (out : list Metric) (lg : list string),
    (forall j m, nth_error ms j = Some m -> nth_error descs (i + j) = Some (desc_of m)) ->
    for_range i ms collect_metric (mkFrame (mkCollector (Some s) er ev) out lg)
    = (Return tt,
       mkFrame
         (mkCollector (Some (snd (readings ms s)))
            (Nat.iter (failures (fst (readings ms s))) int_incr er) ev)
         (out ++ table_samples ms (fst (readings ms s))) lg).
Proof.
  induction ms as [|m ms IH]; intros i s er ev out lg Hd.
  - simpl. now rewrite app_nil_r.
  - cbn [for_range readings].
    unfold bind at 1. unfold collect_metric at 1.
    unfold bind at 1. unfold call_session at 1. cbn [self session errors events ch log].
    destruct (metric_Get m s) as [[val err] s'].
    destruct (readings ms s') as [rs s''] eqn:Hrs.
    assert (Hd' : forall j m', nth_error ms j = Some m' ->
                               nth_error descs (S i + j) = Some (desc_of m')).
    { intros j m' Hj. specialize (Hd (S j) m' Hj).
      now replace (S i + j)%nat with (i + S j)%nat by lia. }
    destruct err as [e|].
    + unfold incr_errors. cbn [self session errors events ch log].
      rewrite (IH (S i) s' (int_incr er) ev out lg Hd'), Hrs.
      cbn [fst snd table_samples]. unfold failures, sample. cbn [filter failed snd].
      cbn [List.length app]. rewrite Nat.iter_succ_r. reflexivity.
    + unfold bind at 1. unfold index at 1.
      specialize (Hd 0%nat m eq_refl). rewrite Nat.add_0_r in Hd. rewrite Hd.
      unfold send. cbn [self session errors events ch log].
      rewrite (IH (S i) s' er ev _ lg Hd'), Hrs.
      cbn [fst snd table_samples]. unfold failures, sample. cbn [filter failed snd fst].
      rewrite <- app_assoc. reflexivity.
Qed.

Lemma for_range_metrics (s : Session) (er ev : int) (out : list Metric) (lg : list string) :
  for_range 0 metrics collect_metric (mkFrame (mkCollector (Some s) er ev) out lg)
  = (Return tt,
     mkFrame
       (mkCollector (Some (snd (readings metrics s)))
          (Nat.iter (failures (fst (readings metrics s))) int_incr er) ev)
       (out ++ table_samples metrics (fst (readings metrics s))) lg).
Proof.
  apply for_range_collect. intros j m Hj. now apply descs_nth.
Qed.

Lemma for_range_send {A : Type} (xs : list A) :
  forall (i : nat) (c : Collector) (out : list A) (lg : list string),
    for_range i xs (fun _ d => send d) (mkFrame c out lg)
    = (Return tt, mkFrame c (out ++ xs) lg).
Proof.
  induction xs as [|x xs IH]; intros i c out lg.
  - simpl. now rewrite app_nil_r.
  - cbn [for_range]. unfold bind at 1. unfold send at 1. cbn [self ch log].
    rewrite IH, <- app_assoc. reflexivity.
Qed.

End Loop.

(** ** One scrape, case by case *)

Section CollectCases.

Context {L : Lib}.

Lemma Collect_nil_session (c : Collector) :
  session c = None ->
  run Collect c = (Return tt, mkFrame c [isguest_sample 0%float] []).
Proof.
  intros H. unfold run, Collect, bind, load, send, ret.
  cbn [self ch log]. rewrite H. reflexivity.
Qed.

Lemma Collect_refresh_failed (c : Collector) (s s1 : Session) (event : bool) (e : string) :
  session c = Some s ->
  RefreshInfo s = ((event, Some e), s1) ->
  run Collect c
  = (Exit 1,
     mkFrame (mkCollector (Some s1) (errors c) (events c))
       [isguest_sample 1%float] ["An error occured: " ++ e]%string).
Proof.
  intros H Hr. unfold run, Collect, bind, load, send, call_session, log_Printf, os_Exit.
  cbn [self ch log]. rewrite H. cbn [self session ch log]. rewrite H, Hr. reflexivity.
Qed.

(** The collector a returning scrape leaves behind and what it sent, in
    terms of the refresh answer and of the table's answers. *)
Lemma Collect_refreshed (c : Collector) (s s1 : Session) (event : bool) :
  session c = Some s ->
  RefreshInfo s = ((event, None), s1) ->
  let rs := fst (readings metrics s1) in
  let c' := mkCollector (Some (snd (readings metrics s1)))
              (Nat.iter (failures rs) int_incr (errors c))
              (if event then int_incr (events c) else events c) in
  run Collect c
  = (Return tt,
     mkFrame c'
       ([isguest_sample 1%float] ++ table_samples metrics rs
        ++ [events_sample c'; errors_sample c']) []).
Proof.
  intros H Hr rs c'. unfold run, Collect, bind, load, send, call_session, incr_events, ret.
  cbn [self ch log]. rewrite H. cbn [self session ch log]. rewrite H, Hr.
  destruct event; cbn [self session errors events ch log];
    rewrite for_range_metrics; cbn [self ch log app]; rewrite <- app_assoc; reflexivity.
Qed.

(** What [Describe] sends, and that it leaves the collector alone. *)
Lemma Describe_run (c : Collector) :
  run Describe c
  = (Return tt,
     mkFrame c
       (isGuestDesc
        :: match session c with
           | Some _ => descs ++ [eventsDesc; collecterrsDesc]
           | None => []
           end) []).
Proof.
  unfold run, Describe. unfold bind at 1. unfold send at 1. cbn [self ch log app].
  unfold bind at 1. unfold load at 1. cbn [self].
  destruct (session c) as [s|]; [|reflexivity].
  unfold bind at 1. rewrite for_range_send.
  unfold bind, send. cbn [self ch log app]. rewrite <- app_assoc. reflexivity.
Qed.

Lemma failures_le (rs : list (float64 * error)) : (failures rs <= List.length rs)%nat.
Proof. unfold failures. apply filter_length_le. Qed.

(** One scrape from a collector whose counters are far enough from the
    largest int: neither counter goes down, the event counter gains at
    most one and the error counter at most one per table entry. *)
Lemma Collect_counters_le (c : Collector) (r : Result Datatypes.unit) (st : Frame Metric) :
  min_int <= events c < max_int ->
  min_int <= errors c ->
  errors c + Z.of_nat (List.length metrics) <= max_int ->
  run Collect c = (r, st) ->
  events c <= events (self st) <= events c + 1 /\
  errors c <= errors (self st) <= errors c + Z.of_nat (List.length metrics).
Proof.
  intros Hev Her Hroom Hrun.
  pose proof (Nat2Z.is_nonneg (List.length metrics)) as Hnn.
  replace st with (snd (run Collect c)) by now rewrite Hrun.
  clear Hrun.
  destruct (session c) as [s|] eqn:Hs.
  - destruct (RefreshInfo s) as [[event [e|]] s1] eqn:Hr.
    + rewrite (Collect_refresh_failed c s s1 event e Hs Hr).
      cbn [snd self events errors]. lia.
    + rewrite (Collect_refreshed c s s1 event Hs Hr).
      cbn [snd self events errors].
      pose proof (failures_le (fst (readings metrics s1))) as Hle.
      rewrite readings_length in Hle. apply Nat2Z.inj_le in Hle.
      pose proof (Nat2Z.is_nonneg (failures (fst (readings metrics s1)))) as Hf.
      rewrite iter_int_incr_small by lia.
      destruct event; [rewrite int_incr_small by lia|]; lia.
  - rewrite (Collect_nil_session c Hs). cbn [snd self]. lia.
Qed.

(** The counters after [n] scrapes in a row. *)
Lemma lifetime_counters (n : nat) (c0 c : Collector) :
  lifetime n c0 c ->
  min_int <= events c0 ->
  min_int <= errors c0 ->
  events c0 + Z.of_nat n <= max_int ->
  errors c0 + Z.of_nat n * Z.of_nat (List.length metrics) <= max_int ->
  events c0 <= events c <= events c0 + Z.of_nat n /\
  errors c0 <= errors c <= errors c0 + Z.of_nat n * Z.of_nat (List.length metrics).
Proof.
  pose proof (Nat2Z.is_nonneg (List.length metrics)) as Hnn.
  induction 1 as [c0|n c0 c st Hlife IH Hrun]; intros Hev Her Hevn Hern.
  - lia.
  - rewrite Nat2Z.inj_succ in Hevn, Hern |- *.
    destruct IH as [IHev IHer]; try lia.
    pose proof (Collect_counters_le c (Return tt) st) as Hstep.
    destruct Hstep as [Hsev Hser]; try assumption; lia.
Qed.

End CollectCases.

(** ** Facts about the table and the samples it yields *)

Section Table.

Context {L : Lib}.

Lemma distinctb_NoDup (xs : list string) : distinctb xs = true -> NoDup xs.
Proof.
  induction xs as [|x xs IH]; simpl; intros H.
  - constructor.
  - apply andb_true_iff in H. destruct H as [Hx Hxs].
    constructor; [|now apply IH].
    intros Hin. apply negb_true_iff in Hx.
    assert (Hex : existsb (String.eqb x) xs = true).
    { apply existsb_exists. exists x. split; [exact Hin|apply String.eqb_refl]. }
    congruence.
Qed.

(** The registry would refuse two collectors' descriptors with one name;
    the exporter's names are pairwise different. *)
Lemma exported_names_NoDup : NoDup exported_names.
Proof. apply distinctb_NoDup. vm_compute. reflexivity. Qed.

Lemma metrics_length : List.length metrics = 29%nat.
Proof. reflexivity. Qed.

Lemma table_names_NoDup : NoDup (map prometheus_name metrics).
Proof.
  pose proof exported_names_NoDup as H. unfold exported_names in H.
  do 3 (apply NoDup_cons_iff in H; destruct H as [_ H]). exact H.
Qed.


Lemma desc_of_table_fresh (m : metric) :
  In m metrics ->
  desc_of m <> isGuestDesc /\ desc_of m <> eventsDesc /\ desc_of m <> collecterrsDesc.
Proof.
  intros Hin.
  pose proof exported_names_NoDup as H. unfold exported_names in H.
  apply NoDup_cons_iff in H. destruct H as [H1 H].
  apply NoDup_cons_iff in H. destruct H as [H2 H].
  apply NoDup_cons_iff in H. destruct H as [H3 _].
  assert (Hn : In (prometheus_name m) (map prometheus_name metrics)) by now apply in_map.
  repeat split; intros Heq; unfold desc_of, NewDesc in Heq.
  - apply H1. right. right. replace (fqName isGuestDesc) with (prometheus_name m); [exact Hn|].
    now rewrite <- Heq.
  - apply H2. right. replace (fqName eventsDesc) with (prometheus_name m); [exact Hn|].
    now rewrite <- Heq.
  - apply H3. replace (fqName collecterrsDesc) with (prometheus_name m); [exact Hn|].
    now rewrite <- Heq.
Qed.

Lemma failures_none (rs : list (float64 * error)) :
  Forall (fun r => snd r = None) rs -> failures rs = 0%nat.
Proof.
  unfold failures. induction 1 as [|r rs Hr _ IH]; [reflexivity|].
  destruct r as [v e]. cbn [snd] in Hr. subst e. exact IH.
Qed.

Lemma table_samples_length (ms : list metric) :
  forall rs, List.length rs = List.length ms ->
             (List.length (table_samples ms rs) + failures rs = List.length ms)%nat.
Proof.
  induction ms as [|m ms IH]; intros [|r rs] Hlen; try discriminate; [reflexivity|].
  injection Hlen as Hlen. specialize (IH rs Hlen).
  cbn [table_samples]. rewrite length_app. unfold failures, sample in *.
  cbn [filter]. destruct (failed r); cbn [List.length]; lia.
Qed.

Lemma table_samples_descs (ms : list metric) :
  forall rs, List.length rs = List.length ms ->
             Forall (fun r => snd r = None) rs ->
             map metric_desc (table_samples ms rs) = map desc_of ms.
Proof.
  induction ms as [|m ms IH]; intros [|r rs] Hlen Hok; try discriminate; [reflexivity|].
  injection Hlen as Hlen. inversion Hok as [|? ? Hr Hrs]; subst.
  destruct r as [v e]. cbn [snd] in Hr. subst e.
  cbn [table_samples sample failed snd fst app map]. now rewrite IH.
Qed.


(** An entry whose getter succeeded has its sample sent. *)
Lemma table_samples_nth (ms : list metric) :
  forall rs j m r,
    nth_error ms j = Some m -> nth_error rs j = Some r -> failed r = false ->
    In (MustNewConstMetric (desc_of m) (ValueType_of m) (fst r)) (table_samples ms rs).
Proof.
  induction ms as [|m0 ms IH]; intros [|r0 rs] [|j] m r Hm Hr Hf; try discriminate;
    cbn [table_samples]; apply in_or_app.
  - injection Hm as ->. injection Hr as ->. left. unfold sample. rewrite Hf. now left.
  - right. now apply (IH rs j).
Qed.

(** [metric.Get] answers with the getter's value times the multiplier, and
    leaves the session as the getter left it. *)
Lemma metric_Get_ok (m : metric) (s s' : Session) (v : float64) :
  getf64_Get (getter m) s = ((v, None), s') ->
  metric_Get m s = ((PrimFloat.mul v (multiplier m), None), s').
Proof. intros H. unfold metric_Get. now rewrite H. Qed.

Lemma readings_raw (ms : list metric) :
  forall s i m v,
    nth_error ms i = Some m ->
    nth_error (raw_readings ms s) i = Some (v, None) ->
    nth_error (fst (readings ms s)) i = Some (PrimFloat.mul v (multiplier m), None).
Proof.
  induction ms as [|m0 ms IH]; intros s [|i] m v Hm Hv; try discriminate;
    cbn [raw_readings readings] in *; unfold metric_Get;
    destruct (getf64_Get (getter m0) s) as [[v0 e0] s0];
    specialize (IH s0).
  - injection Hm as ->. cbn [nth_error] in Hv. injection Hv as -> ->.
    destruct (readings ms s0). reflexivity.
  - cbn [nth_error] in Hm, Hv. specialize (IH i m v Hm Hv).
    destruct e0; destruct (readings ms s0); exact IH.
Qed.

Lemma append_nil_r (x : string) : (x ++ "")%string = x.
Proof. induction x as [|a x IH]; simpl; [reflexivity|now rewrite IH]. Qed.

Lemma prometheus_name_spec (m : metric) : prometheus_name m = spec_name m.
Proof.
  unfold prometheus_name, spec_name, metric_name_pfx.
  destruct (String.eqb (unit m) ""); simpl.
  - now rewrite append_nil_r.
  - reflexivity.
Qed.

End Table.

(** ** The collector without a session *)

(** C1.  A scrape on a collector whose session is absent returns after
    sending exactly one sample, the guest-presence gauge with value 0: the
    channel holds no table sample and neither counter, nothing is logged,
    and the collector is left as it was. *)
Theorem collect_without_session {L : Lib} (c : Collector) :
  session c = None ->
  run Collect c
  = (Return tt, mkFrame c [MustNewConstMetric isGuestDesc GaugeValue 0%float] []).
Proof.
  intros H. now apply Collect_nil_session.
Qed.

Lemma collect_without_session_witness :
  run Collect (fst (@NewCollector fake.nolib))
  = (Return tt,
     mkFrame (fst (@NewCollector fake.nolib))
       [MustNewConstMetric isGuestDesc GaugeValue 0%float] []).
Proof.
  apply (@collect_without_session fake.nolib). reflexivity.
Defined.

(** ** Scrapes on a live session *)

(** C2.  When a session exists, the refresh succeeds and every getter of
    the table succeeds, the scrape returns having sent table size + 3
    samples: the guest-presence gauge, one sample per table entry in table
    order, the events counter and the errors counter; the error counter
    keeps its value. *)
Theorem collect_all_getters_succeed {L : Lib} (c : Collector) (s s1 : Session) (event : bool) :
  session c = Some s ->
  RefreshInfo s = ((event, None), s1) ->
  Forall (fun r => snd r = None) (fst (readings metrics s1)) ->
  exists st,
    run Collect c = (Return tt, st) /\
    List.length (ch st) = (List.length metrics + 3)%nat /\
    map metric_desc (ch st) = [isGuestDesc] ++ descs ++ [eventsDesc; collecterrsDesc] /\
    errors (self st) = errors c.
Proof.
  intros Hs Hr Hok.
  pose proof (Collect_refreshed c s s1 event Hs Hr) as Hrun. cbv zeta in Hrun.
  pose proof (readings_length metrics s1) as Hlen.
  pose proof (table_samples_length metrics _ Hlen) as Hn.
  rewrite (failures_none _ Hok) in Hn, Hrun.
  eexists. split; [exact Hrun|]. cbn [self ch errors Nat.iter].
  repeat split.
  - rewrite !length_app. cbn [List.length]. lia.
  - rewrite !map_app, (table_samples_descs _ _ Hlen Hok), <- descs_map. reflexivity.
Qed.

Lemma collect_all_getters_succeed_witness :
  exists st,
    run Collect (fst (@NewCollector fake.lib)) = (Return tt, st) /\
    List.length (ch st) = (List.length (@metrics fake.lib) + 3)%nat /\
    map metric_desc (ch st)
    = [isGuestDesc] ++ @descs fake.lib ++ [eventsDesc; collecterrsDesc] /\
    errors (self st) = 0.
Proof.
  apply (@collect_all_getters_succeed fake.lib (fst NewCollector) fake.healthy
           (snd (fake.refresh fake.healthy)) false).
  - reflexivity.
  - reflexivity.
  - vm_compute. repeat constructor.
Defined.



(** C10.  On a live session whose refresh succeeds, the two counter
    samples close the scrape and carry the values the counters have when
    the scrape returns: the events counter after this scrape's event, the
    errors counter after one increment per getter that failed in this
    scrape. *)
Theorem counters_sent_after_update {L : Lib} (c : Collector) (s s1 : Session) (event : bool) :
  session c = Some s ->
  RefreshInfo s = ((event, None), s1) ->
  exists st out,
    run Collect c = (Return tt, st) /\
    ch st = out ++ [MustNewConstMetric eventsDesc CounterValue (float64_of_Z (events (self st)));
                    MustNewConstMetric collecterrsDesc CounterValue (float64_of_Z (errors (self st)))] /\
    events (self st) = (if event then int_incr (events c) else events c) /\
    errors (self st) = Nat.iter (failures (fst (readings metrics s1))) int_incr (errors c) /\
    (min_int <= errors c ->
     errors c + Z.of_nat (failures (fst (readings metrics s1))) <= max_int ->
     errors (self st) = errors c + Z.of_nat (failures (fst (readings metrics s1)))).
Proof.
  intros Hs Hr.
  pose proof (Collect_refreshed c s s1 event Hs Hr) as Hrun. cbv zeta in Hrun.
  eexists. exists ([isguest_sample 1%float] ++ table_samples metrics (fst (readings metrics s1))).
  split; [exact Hrun|]. cbn [self ch errors events].
  split; [now rewrite <- app_assoc|].
  split; [reflexivity|]. split; [reflexivity|].
  intros Hlo Hhi. now apply iter_int_incr_small.
Qed.

Lemma counters_sent_after_update_witness :
  exists st out,
    run Collect (fake.guest fake.one_broken 7 3) = (Return tt, st) /\
    ch st = out ++ [MustNewConstMetric eventsDesc CounterValue (float64_of_Z (events (self st)));
                    MustNewConstMetric collecterrsDesc CounterValue (float64_of_Z (errors (self st)))] /\
    events (self st) = 3 /\
    errors (self st) = 8.
Proof.
  destruct (@counters_sent_after_update fake.lib (fake.guest fake.one_broken 7 3)
              fake.one_broken (snd (fake.refresh fake.one_broken)) false
              eq_refl eq_refl) as (st & out & Hrun & Hch & Hev & Her & _).
  exists st, out. repeat split; [exact Hrun|exact Hch|exact Hev|exact Her].
Defined.

(** ** Refresh failure *)

(** C6.  When a session exists and its refresh reports an error, the
    scrape does not return: the process exits with a code other than 0.
    Up to there only the guest-presence gauge, with value 1, was sent;
    the error is logged and neither counter has moved. *)
Theorem collect_refresh_error_exits {L : Lib} (c : Collector) (s s1 : Session)
  (event : bool) (e : string) :
  session c = Some s ->
  RefreshInfo s = ((event, Some e), s1) ->
  exists code st,
    run Collect c = (Exit code, st) /\
    code <> 0 /\
    ch st = [MustNewConstMetric isGuestDesc GaugeValue 1%float] /\
    log st = [("An error occured: " ++ e)%string] /\
    errors (self st) = errors c /\
    events (self st) = events c.
Proof.
  intros Hs Hr. exists 1. eexists.
  split; [exact (Collect_refresh_failed c s s1 event e Hs Hr)|].
  cbn [self ch log errors events]. repeat split. discriminate.
Qed.

Lemma collect_refresh_error_exits_witness :
  exists code st,
    run Collect (fake.guest fake.stale 7 3) = (Exit code, st) /\
    code <> 0 /\
    ch st = [MustNewConstMetric isGuestDesc GaugeValue 1%float] /\
    log st = ["An error occured: VMGuestLib_UpdateInfo failed"] /\
    errors (self st) = 7 /\
    events (self st) = 3.
Proof.
  apply (@collect_refresh_error_exits fake.lib (fake.guest fake.stale 7 3)
           fake.stale (snd (fake.refresh fake.stale)) false
           "VMGuestLib_UpdateInfo failed"); reflexivity.
Defined.

(** ** The event counter *)

(** C7.  A scrape on a live session whose refresh succeeds increments the
    event counter once when the refresh reports an event (the [++] of Go's
    int: plus one below the largest int) and leaves it alone otherwise,
    whatever the getters do.  Nothing else moves it: not a scrape without
    a session, not a scrape that ends the process, not [Describe]. *)
Theorem events_counter_steps {L : Lib} (c : Collector) :
  (forall s s1 event,
      session c = Some s ->
      RefreshInfo s = ((event, None), s1) ->
      exists st,
        run Collect c = (Return tt, st) /\
        events (self st) = (if event then int_incr (events c) else events c) /\
        (min_int <= events c < max_int ->
         events (self st) = events c + (if event then 1 else 0))) /\
  (session c = None -> events (self (snd (run Collect c))) = events c) /\
  (forall s s1 event e,
      session c = Some s ->
      RefreshInfo s = ((event, Some e), s1) ->
      events (self (snd (run Collect c))) = events c) /\
  events (self (snd (run Describe c))) = events c.
Proof.
  repeat split.
  - intros s s1 event Hs Hr.
    pose proof (Collect_refreshed c s s1 event Hs Hr) as Hrun. cbv zeta in Hrun.
    eexists. split; [exact Hrun|]. cbn [self events]. split; [reflexivity|].
    intros Hrange. destruct event; [now apply int_incr_small|lia].
  - intros Hs. now rewrite (Collect_nil_session c Hs).
  - intros s s1 event e Hs Hr. now rewrite (Collect_refresh_failed c s s1 event e Hs Hr).
  - now rewrite Describe_run.
Qed.

Lemma events_counter_steps_witness :
  (exists st,
      run Collect (fake.guest fake.migrated 7 3) = (Return tt, st) /\
      events (self st) = 4) /\
  (exists st,
      run Collect (fake.guest fake.one_broken 7 3) = (Return tt, st) /\
      events (self st) = 3).
Proof.
  split.
  - destruct (@events_counter_steps fake.lib (fake.guest fake.migrated 7 3))
      as (H & _).
    destruct (H fake.migrated (snd (fake.refresh fake.migrated)) true eq_refl eq_refl)
      as (st & Hrun & Hev & _).
    exists st. split; [exact Hrun|exact Hev].
  - destruct (@events_counter_steps fake.lib (fake.guest fake.one_broken 7 3))
      as (H & _).
    destruct (H fake.one_broken (snd (fake.refresh fake.one_broken)) false eq_refl eq_refl)
      as (st & Hrun & Hev & _).
    exists st. split; [exact Hrun|exact Hev].
Defined.

(** ** Units *)

(** C4.  Whatever value [v] a descriptor's getter answers, [metric.Get]
    answers [v] times the descriptor's multiplier, and that product is the
    value of the sample the scrape sends for the descriptor.  A getter
    answering 2048 yields 2048 * 1048576 through [mbmetric] and
    2048 * 0.001 through [msmetric] (binary64 products: 2147483648 and
    the double written 2.048). *)
Theorem measurement_is_raw_times_multiplier {L : Lib} :
  (forall (m : metric) (s s' : Session) (v : float64),
      getf64_Get (getter m) s = ((v, None), s') ->
      metric_Get m s = ((PrimFloat.mul v (multiplier m), None), s')) /\
  (forall (c : Collector) (s s1 : Session) (event : bool) (i : nat) (m : metric) (v : float64),
      session c = Some s ->
      RefreshInfo s = ((event, None), s1) ->
      nth_error metrics i = Some m ->
      nth_error (raw_readings metrics s1) i = Some (v, None) ->
      In (MustNewConstMetric (desc_of m) (ValueType_of m) (PrimFloat.mul v (multiplier m)))
         (ch (snd (run Collect c)))) /\
  (forall (g : getf64) (name desc : string) (s s' : Session),
      getf64_Get g s = ((2048%float, None), s') ->
      metric_Get (mbmetric g name desc) s
      = ((PrimFloat.mul 2048 1048576, None), s')) /\
  (forall (g : getf64) (name desc : string) (s s' : Session),
      getf64_Get g s = ((2048%float, None), s') ->
      metric_Get (msmetric g name desc) s
      = ((PrimFloat.mul 2048 0.001, None), s')) /\
  PrimFloat.mul 2048 1048576 = 2147483648%float /\
  PrimFloat.mul 2048 0.001 = 2.048%float.
Proof.
  split; [exact metric_Get_ok|].
  split.
  { intros c s s1 event i m v Hs Hr Hm Hv.
    rewrite (Collect_refreshed c s s1 event Hs Hr). cbn [snd ch].
    apply in_or_app. right. apply in_or_app. left.
    apply (table_samples_nth metrics _ i m (PrimFloat.mul v (multiplier m), None) Hm).
    - now apply readings_raw.
    - reflexivity. }
  split; [|split].
  - intros g name desc s s' H. now apply (metric_Get_ok (mbmetric g name desc)).
  - intros g name desc s s' H. now apply (metric_Get_ok (msmetric g name desc)).
  - split; reflexivity.
Qed.

Lemma measurement_is_raw_times_multiplier_witness :
  @metric_Get fake.lib
    (@mbmetric fake.lib (@getu64 fake.lib (fake.get 5)) "HostMemUsed"
       "total amount of consumed memory on the host")
    fake.healthy
  = ((2147483648%float, None), fake.healthy) /\
  @metric_Get fake.lib
    (@msmetric fake.lib (@getu64 fake.lib (fake.get 9)) "CPUUsed"
       "time during which the virtual machine has been using the CPU.")
    fake.healthy
  = ((2.048%float, None), fake.healthy) /\
  In (MustNewConstMetric
        (NewDesc "vmwareguest_CPUUsed_seconds"
           "time during which the virtual machine has been using the CPU." [] [])
        CounterValue 2.048%float)
     (ch (snd (run Collect (fake.guest fake.healthy 0 0)))).
Proof.
  destruct (@measurement_is_raw_times_multiplier fake.lib) as (_ & Hsent & Hmb & Hms & _ & _).
  split; [|split].
  - apply (Hmb (@getu64 fake.lib (fake.get 5))). reflexivity.
  - apply (Hms (@getu64 fake.lib (fake.get 9))). reflexivity.
  - apply (Hsent (fake.guest fake.healthy 0 0) fake.healthy
             (snd (fake.refresh fake.healthy)) false 9%nat
             (@msmetric fake.lib (@getu64 fake.lib (fake.get 9)) "CPUUsed"
                "time during which the virtual machine has been using the CPU.")
             2048%float); reflexivity.
Defined.

(** ** Names *)

(** C9.  The exposed name of a table entry is the prefix vmwareguest_, the
    entry's base name and, exactly when the unit is not empty, an
    underscore and the unit; the descriptors registered for the table
    carry these names, entry by entry.  The three fixed descriptors are
    named vmwareguest_isguest, vmwareguest_events and
    vmwareguest_collecterrors. *)
Theorem exposed_names {L : Lib} :
  (forall m : metric, prometheus_name m = spec_name m) /\
  map fqName descs = map spec_name metrics /\
  fqName isGuestDesc = "vmwareguest_isguest" /\
  fqName eventsDesc = "vmwareguest_events" /\
  fqName collecterrsDesc = "vmwareguest_collecterrors".
Proof.
  split; [exact prometheus_name_spec|].
  split; [|repeat split].
  rewrite descs_map, map_map. apply map_ext. intros m. cbn [desc_of NewDesc fqName].
  apply prometheus_name_spec.
Qed.

(** ** Describe *)

(** C5.  [Describe] returns and leaves the collector as it found it.  It
    always sends the guest-presence descriptor first.  With a session it
    goes on with one descriptor per table entry, in table order, built
    from the entry's exposed name and description, and then the events
    and errors descriptors; without a session it sends nothing else.  So
    the descriptor of each table entry, the events descriptor and the
    errors descriptor are sent if and only if the collector has a
    session.  A second call sends the same descriptors as the first. *)
Theorem describe_spec {L : Lib} (c : Collector) :
  exists out,
    run Describe c = (Return tt, mkFrame c out []) /\
    out = isGuestDesc
          :: match session c with
             | Some _ =>
                 map (fun m => NewDesc (prometheus_name m) (desc m) [] []) metrics
                 ++ [eventsDesc; collecterrsDesc]
             | None => []
             end /\
    In isGuestDesc out /\
    (forall m, In m metrics ->
               (In (NewDesc (prometheus_name m) (desc m) [] []) out <-> session c <> None)) /\
    (In eventsDesc out <-> session c <> None) /\
    (In collecterrsDesc out <-> session c <> None) /\
    (forall d, In d (descs ++ [eventsDesc; collecterrsDesc]) ->
               (In d out <-> session c <> None)) /\
    run Describe (self (snd (run Describe c))) = run Describe c.
Proof.
  assert (Hiff : forall d, In d (descs ++ [eventsDesc; collecterrsDesc]) ->
            (In d (isGuestDesc
                   :: match session c with
                      | Some _ => descs ++ [eventsDesc; collecterrsDesc]
                      | None => []
                      end) <-> session c <> None)).
  { intros d Hd.
    assert (Hne : isGuestDesc <> d).
    { apply in_app_or in Hd. destruct Hd as [Hd|[<-|[<-|[]]]]; try discriminate.
      rewrite descs_map in Hd. apply in_map_iff in Hd. destruct Hd as (m & <- & Hm).
      destruct (desc_of_table_fresh m Hm) as (Hg & _).
      intros Heq. apply Hg. now symmetry. }
    destruct (session c) as [s|].
    + split; [discriminate|]. intros _. now right.
    + split; [|congruence]. intros [Heq|[]]. contradiction. }
  eexists. split; [apply Describe_run|].
  split; [now rewrite descs_map|].
  split; [now left|].
  split; [|split; [|split; [|split]]].
  - intros m Hm. apply Hiff. apply in_or_app. left.
    rewrite descs_map. now apply (in_map desc_of).
  - apply Hiff. apply in_or_app. right. now left.
  - apply Hiff. apply in_or_app. right. right. now left.
  - exact Hiff.
  - rewrite (Describe_run c) at 1. cbn [snd self]. reflexivity.
Qed.

Lemma describe_spec_witness :
  exists out,
    run Describe (fake.guest fake.healthy 0 0)
    = (Return tt, mkFrame (fake.guest fake.healthy 0 0) out []) /\
    List.length out = 32%nat /\
    (In (NewDesc "vmwareguest_HostMemUsed_bytes"
           "total amount of consumed memory on the host" [] []) out
     <-> session (fake.guest fake.healthy 0 0) <> None) /\
    (In (NewDesc "vmwareguest_CPUReservation_hertz"
           "minimum processing power available to the virtual machine." [] []) out
     <-> session (fake.guest fake.healthy 0 0) <> None) /\
    (In eventsDesc out <-> session (fake.guest fake.healthy 0 0) <> None).
Proof.
  destruct (@describe_spec fake.lib (fake.guest fake.healthy 0 0))
    as (out & Hrun & Hout & _ & Htable & Hev & _).
  exists out. split; [exact Hrun|].
  split; [rewrite Hout; reflexivity|].
  split; [|split].
  - apply (Htable (@mbmetric fake.lib (@getu64 fake.lib (fake.get 5)) "HostMemUsed"
                     "total amount of consumed memory on the host")).
    apply (nth_error_In _ 5). reflexivity.
  - apply (Htable (@mzmetric fake.lib (@getu32 fake.lib (fake.get 28)) "CPUReservation"
                     "minimum processing power available to the virtual machine.")).
    apply (nth_error_In _ 28). reflexivity.
  - exact Hev.
Defined.

(** ** Counters over a process lifetime *)

Lemma restless_lifetime (n : nat) :
  Z.of_nat n <= max_int ->
  lifetime n (fst (@NewCollector fake.restless))
    (@mkCollector fake.restless
       (Some (fake.mksession (Z.of_nat n) true None [] 2048)) 0 (Z.of_nat n)).
Proof.
  induction n as [|n IH]; intros Hn.
  - apply lifetime_start.
  - rewrite Nat2Z.inj_succ in Hn |- *.
    specialize (IH ltac:(lia)).
    pose proof (@Collect_refreshed fake.restless
                  (@mkCollector fake.restless
                     (Some (fake.mksession (Z.of_nat n) true None [] 2048)) 0 (Z.of_nat n))
                  (fake.mksession (Z.of_nat n) true None [] 2048)
                  (fake.mksession (Z.of_nat n + 1) true None [] 2048) true
                  eq_refl eq_refl) as Hrun.
    cbv zeta in Hrun.
    pose proof (lifetime_scrape n _ _ _ IH Hrun) as Hlife.
    cbn [self events errors] in Hlife.
    rewrite int_incr_small in Hlife by (unfold min_int; lia).
    rewrite <- Z.add_1_r. exact Hlife.
Qed.

(** C8, as stated, fails: on a guest that reports an event at every
    refresh, the collector made by [NewCollector] reaches, scrape after
    scrape, the largest int as event count, and the next scrape wraps
    the counter around to the smallest int. *)
Lemma counters_wrap_around :
  exists (c : @Collector fake.restless) (st : Frame Metric),
    lifetime (Z.to_nat max_int) (fst (@NewCollector fake.restless)) c /\
    run Collect c = (Return tt, st) /\
    events c = max_int /\
    events (self st) = min_int /\
    events (self st) < events c.
Proof.
  exists (@mkCollector fake.restless
            (Some (fake.mksession max_int true None [] 2048)) 0 max_int).
  eexists. split; [|split].
  - pose proof (restless_lifetime (Z.to_nat max_int)) as H.
    rewrite Z2Nat.id in H by (unfold max_int; lia).
    apply H. lia.
  - apply (@Collect_refreshed fake.restless
             (@mkCollector fake.restless
                (Some (fake.mksession max_int true None [] 2048)) 0 max_int)
             (fake.mksession max_int true None [] 2048)
             (fake.mksession (max_int + 1) true None [] 2048) true); reflexivity.
  - cbn [self events]. rewrite int_incr_max. unfold min_int, max_int. lia.
Qed.

(** C8, amended.  From the collector [NewCollector] makes, as long as
    the scrapes made so far and the next one together cannot carry a
    counter past the largest int (one event and one error per table entry
    and scrape at most), the next call of [Collect], however it ends,
    leaves each counter greater than or equal to its value before the
    call. *)
Theorem counters_monotone_before_overflow {L : Lib} (n : nat) (c : Collector)
  (r : Result Datatypes.unit) (st : Frame Metric) :
  lifetime n (fst NewCollector) c ->
  (Z.of_nat n + 1) * Z.of_nat (List.length metrics) <= max_int ->
  run Collect c = (r, st) ->
  events c <= events (self st) /\ errors c <= errors (self st).
Proof.
  intros Hlife Hroom Hrun.
  assert (Hlen : Z.of_nat (List.length metrics) = 29) by reflexivity.
  assert (H0 : events (fst NewCollector) = 0 /\ errors (fst NewCollector) = 0).
  { unfold NewCollector. destruct NewSession as [s0 e0]. split; reflexivity. }
  destruct H0 as [Hev0 Her0].
  pose proof (lifetime_counters n _ c Hlife) as Hinv.
  rewrite Hev0, Her0, Hlen in Hinv. rewrite Hlen in Hroom.
  destruct Hinv as [Hev Her]; try (unfold min_int, max_int in *; lia).
  pose proof (Collect_counters_le c r st) as Hstep. rewrite Hlen in Hstep.
  destruct Hstep as [Hsev Hser]; try assumption; unfold min_int, max_int in *; lia.
Qed.

Lemma counters_monotone_before_overflow_witness :
  exists st,
    run Collect (fst (@NewCollector fake.lib)) = (Return tt, st) /\
    events (fst (@NewCollector fake.lib)) <= events (self st) /\
    errors (fst (@NewCollector fake.lib)) <= errors (self st).
Proof.
  eexists. split.
  - vm_compute. reflexivity.
  - apply (@counters_monotone_before_overflow fake.lib 0 (fst (@NewCollector fake.lib))
             (Return tt)).
    + apply lifetime_start.
    + vm_compute. discriminate.
    + vm_compute. reflexivity.
Defined.

(** ** Further facts about the table, the descriptors and the samples *)

Section Registry.

Context {L : Lib}.

Lemma init_appends (ds : list Desc) : init ds = ds ++ map desc_of metrics.
Proof. unfold init. apply init_app. Qed.

Lemma descs_NoDup : NoDup descs.
Proof.
  apply (NoDup_map_inv fqName).
  rewrite descs_map, map_map. cbn [desc_of NewDesc fqName].
  exact table_names_NoDup.
Qed.

Lemma descs_fresh (d : Desc) :
  In d descs -> d <> isGuestDesc /\ d <> eventsDesc /\ d <> collecterrsDesc.
Proof.
  rewrite descs_map. intros Hd. apply in_map_iff in Hd.
  destruct Hd as (m & <- & Hm). now apply desc_of_table_fresh.
Qed.

(** Descriptors taken from the table without repetition, between the
    guest-presence descriptor and the two counters, repeat nothing. *)
Lemma framed_NoDup (ds : list Desc) :
  NoDup ds -> incl ds descs ->
  NoDup (isGuestDesc :: ds ++ [eventsDesc; collecterrsDesc]).
Proof.
  intros Hnd Hincl. constructor.
  - intros Hin. apply in_app_or in Hin. destruct Hin as [Hin|[Heq|[Heq|[]]]];
      try discriminate.
    apply Hincl, descs_fresh in Hin. now destruct Hin as (Hg & _).
  - apply NoDup_app; [exact Hnd| |].
    + constructor; [intros [Heq|[]]; discriminate|]. constructor; [intros []|constructor].
    + intros d Hd [<-|[<-|[]]]; apply Hincl, descs_fresh in Hd;
        destruct Hd as (_ & He & Hc); congruence.
Qed.

Lemma table_samples_descs_incl (ms : list metric) :
  forall rs, incl (map metric_desc (table_samples ms rs)) (map desc_of ms).
Proof.
  induction ms as [|m ms IH]; intros [|r rs] d Hd; try contradiction.
  cbn [table_samples] in Hd. rewrite map_app in Hd. apply in_app_or in Hd.
  destruct Hd as [Hd|Hd].
  - unfold sample in Hd. destruct (failed r); [contradiction|].
    destruct Hd as [<-|[]]. now left.
  - right. now apply (IH rs).
Qed.

Lemma table_samples_descs_NoDup (ms : list metric) :
  forall rs, NoDup (map desc_of ms) -> NoDup (map metric_desc (table_samples ms rs)).
Proof.
  induction ms as [|m ms IH]; intros [|r rs] Hnd; try constructor.
  cbn [table_samples map] in *. inversion Hnd as [|? ? Hnotin Hnd']; subst.
  rewrite map_app. unfold sample. destruct (failed r); cbn [map app].
  - now apply IH.
  - constructor; [|now apply IH].
    intros Hin. apply Hnotin. now apply (table_samples_descs_incl ms rs).
Qed.

(** [table_samples] with the list functions of the library: pair the table
    with the answers, drop the failures, build one sample per pair left. *)
Lemma table_samples_filter (ms : list metric) :
  forall rs,
    table_samples ms rs
    = map (fun p => MustNewConstMetric (desc_of (fst p)) (ValueType_of (fst p)) (fst (snd p)))
        (filter (fun p => negb (failed (snd p))) (combine ms rs)).
Proof.
  induction ms as [|m ms IH]; intros [|r rs]; try reflexivity.
  cbn [table_samples combine filter snd]. unfold sample.
  destruct (failed r); cbn [negb map app fst snd]; now rewrite IH.
Qed.

Lemma prometheus_name_prefix (m : metric) :
  exists rest, prometheus_name m = (metric_name_pfx ++ rest)%string.
Proof.
  unfold prometheus_name. destruct (String.eqb (unit m) "").
  - now exists (name m).
  - exists (name m ++ ("_" ++ unit m))%string. reflexivity.
Qed.

(** One scrape keeps the session pointer nil or non-nil, as it was. *)
Lemma Collect_session_kept (c : Collector) :
  session (self (snd (run Collect c))) = None <-> session c = None.
Proof.
  destruct (session c) as [s|] eqn:Hs.
  - destruct (RefreshInfo s) as [[event [e|]] s1] eqn:Hr.
    + rewrite (Collect_refresh_failed c s s1 event e Hs Hr). cbn [snd self session].
      split; discriminate.
    + rewrite (Collect_refreshed c s s1 event Hs Hr). cbn [snd self session].
      split; discriminate.
  - rewrite (Collect_nil_session c Hs). cbn [snd self]. now rewrite Hs.
Qed.

End Registry.

(** ** How a scrape can end *)

(** X1.  [Collect] never panics: the session is only used when it is not
    nil and [descs[i]] is always in range.  It returns when there is no
    session or the refresh succeeds, and ends the process with code 1
    exactly when there is a session whose refresh reports an error.
    [Describe] always returns. *)
Theorem collect_returns_or_exits {L : Lib} (c : Collector) :
  (session c = None -> fst (run Collect c) = Return tt) /\
  (forall s, session c = Some s -> snd (fst (RefreshInfo s)) = None ->
             fst (run Collect c) = Return tt) /\
  (forall s, session c = Some s -> snd (fst (RefreshInfo s)) <> None ->
             fst (run Collect c) = Exit 1) /\
  (forall msg, fst (run Collect c) <> Panic msg) /\
  fst (run Describe c) = Return tt.
Proof.
  split; [|split; [|split; [|split]]].
  - intros Hs. now rewrite (Collect_nil_session c Hs).
  - intros s Hs Hok. destruct (RefreshInfo s) as [[event err] s1] eqn:Hr.
    cbn [fst snd] in Hok. subst err.
    now rewrite (Collect_refreshed c s s1 event Hs Hr).
  - intros s Hs Herr. destruct (RefreshInfo s) as [[event [e|]] s1] eqn:Hr.
    + now rewrite (Collect_refresh_failed c s s1 event e Hs Hr).
    + now elim Herr.
  - intros msg. destruct (session c) as [s|] eqn:Hs.
    + destruct (RefreshInfo s) as [[event [e|]] s1] eqn:Hr.
      * rewrite (Collect_refresh_failed c s s1 event e Hs Hr). discriminate.
      * rewrite (Collect_refreshed c s s1 event Hs Hr). discriminate.
    + rewrite (Collect_nil_session c Hs). discriminate.
  - now rewrite Describe_run.
Qed.

Lemma collect_returns_or_exits_witness :
  fst (run Collect (fake.guest fake.one_broken 0 0)) = Return tt /\
  fst (run Collect (fake.guest fake.stale 0 0)) = Exit 1.
Proof.
  split.
  - destruct (@collect_returns_or_exits fake.lib (fake.guest fake.one_broken 0 0))
      as (_ & Hok & _).
    apply (Hok fake.one_broken); reflexivity.
  - destruct (@collect_returns_or_exits fake.lib (fake.guest fake.stale 0 0))
      as (_ & _ & Herr & _).
    apply (Herr fake.stale); [reflexivity|discriminate].
Defined.

(** X2.  On a live session whose refresh succeeds, the samples sent and
    the getters that failed add up to table size + 3: every failed getter
    costs exactly one sample, so a scrape sends between 3 and table
    size + 3 samples. *)
Theorem collect_sample_count {L : Lib} (c : Collector) (s s1 : Session) (event : bool) :
  session c = Some s ->
  RefreshInfo s = ((event, None), s1) ->
  exists st,
    run Collect c = (Return tt, st) /\
    (List.length (ch st) + failures (fst (readings metrics s1))
     = List.length metrics + 3)%nat /\
    (3 <= List.length (ch st) <= List.length metrics + 3)%nat.
Proof.
  intros Hs Hr.
  pose proof (Collect_refreshed c s s1 event Hs Hr) as Hrun. cbv zeta in Hrun.
  pose proof (readings_length metrics s1) as Hlen.
  pose proof (table_samples_length metrics _ Hlen) as Hn.
  eexists. split; [exact Hrun|]. cbn [ch].
  rewrite !length_app. cbn [List.length]. lia.
Qed.

Lemma collect_sample_count_witness :
  exists st,
    run Collect (fake.guest fake.one_broken 0 0) = (Return tt, st) /\
    List.length (ch st) = 31%nat.
Proof.
  destruct (@collect_sample_count fake.lib (fake.guest fake.one_broken 0 0)
              fake.one_broken (snd (fake.refresh fake.one_broken)) false
              eq_refl eq_refl) as (st & Hrun & Hcount & _).
  exists st. split; [exact Hrun|].
  change (List.length (ch st) + 1 = 29 + 3)%nat in Hcount. lia.
Defined.

(** X3.  On a live session whose refresh succeeds, the table samples are
    sent in table order between the guest-presence gauge and the two
    counters: one for each entry whose getter succeeded, under the
    entry's descriptor, with the entry's value type and the value
    [metric.Get] answered; entries whose getter failed are skipped. *)
Theorem collect_samples_in_table_order {L : Lib} (c : Collector) (s s1 : Session)
  (event : bool) :
  session c = Some s ->
  RefreshInfo s = ((event, None), s1) ->
  exists st,
    run Collect c = (Return tt, st) /\
    ch st
    = [MustNewConstMetric isGuestDesc GaugeValue 1%float]
      ++ map (fun p => MustNewConstMetric (desc_of (fst p)) (ValueType_of (fst p)) (fst (snd p)))
           (filter (fun p => negb (failed (snd p)))
              (combine metrics (fst (readings metrics s1))))
      ++ [MustNewConstMetric eventsDesc CounterValue (float64_of_Z (events (self st)));
          MustNewConstMetric collecterrsDesc CounterValue (float64_of_Z (errors (self st)))].
Proof.
  intros Hs Hr.
  pose proof (Collect_refreshed c s s1 event Hs Hr) as Hrun. cbv zeta in Hrun.
  eexists. split; [exact Hrun|]. cbn [ch self].
  now rewrite table_samples_filter.
Qed.

Lemma collect_samples_in_table_order_witness :
  exists st,
    run Collect (fake.guest fake.one_broken 0 0) = (Return tt, st) /\
    map (fun x => fqName (metric_desc x)) (firstn 7 (ch st))
    = ["vmwareguest_isguest"; "vmwareguest_HostMemUnmapped_bytes";
       "vmwareguest_HostMemMapped_bytes"; "vmwareguest_HostMemKernOvhd_bytes";
       "vmwareguest_HostMemPhysFree_bytes"; "vmwareguest_HostMemPhys_bytes";
       "vmwareguest_HostMemShared_bytes"].
Proof.
  destruct (@collect_samples_in_table_order fake.lib (fake.guest fake.one_broken 0 0)
              fake.one_broken (snd (fake.refresh fake.one_broken)) false
              eq_refl eq_refl) as (st & Hrun & Hch).
  exists st. split; [exact Hrun|]. rewrite Hch. reflexivity.
Defined.

(** X4.  [Collect] writes to the log only when it ends the process: a
    scrape that returns has logged nothing, however many getters failed,
    and a scrape that exits has logged exactly one line, made of the
    error the refresh of the collector's session reported. *)
Theorem collect_logs_only_on_exit {L : Lib} (c : Collector)
  (r : Result Datatypes.unit) (st : Frame Metric) :
  run Collect c = (r, st) ->
  (r = Return tt -> log st = []) /\
  (forall code, r = Exit code ->
                exists s e,
                  session c = Some s /\
                  snd (fst (RefreshInfo s)) = Some e /\
                  log st = [("An error occured: " ++ e)%string]).
Proof.
  intros Hrun.
  replace st with (snd (run Collect c)) by now rewrite Hrun.
  replace r with (fst (run Collect c)) by now rewrite Hrun.
  clear Hrun.
  destruct (session c) as [s|] eqn:Hs.
  - destruct (RefreshInfo s) as [[event [e|]] s1] eqn:Hr.
    + rewrite (Collect_refresh_failed c s s1 event e Hs Hr). cbn [fst snd log].
      split; [discriminate|]. intros code _. exists s, e.
      rewrite Hr. cbn [fst snd]. repeat split.
    + rewrite (Collect_refreshed c s s1 event Hs Hr). cbn [fst snd log].
      split; [reflexivity|]. discriminate.
  - rewrite (Collect_nil_session c Hs). cbn [fst snd log].
    split; [reflexivity|]. discriminate.
Qed.

Lemma collect_logs_only_on_exit_witness :
  (exists st,
      run Collect (fake.guest fake.one_broken 0 0) = (Return tt, st) /\ log st = []) /\
  (exists st,
      run Collect (fake.guest fake.stale 0 0) = (Exit 1, st) /\
      log st = ["An error occured: VMGuestLib_UpdateInfo failed"]).
Proof.
  split.
  - eexists. split.
    + vm_compute. reflexivity.
    + refine (proj1 (@collect_logs_only_on_exit fake.lib (fake.guest fake.one_broken 0 0)
                       (Return tt) _ _) eq_refl).
      vm_compute. reflexivity.
  - eexists. split.
    + vm_compute. reflexivity.
    + refine (match proj2 (@collect_logs_only_on_exit fake.lib (fake.guest fake.stale 0 0)
                             (Exit 1) _ _) 1 eq_refl with
              | ex_intro _ s (ex_intro _ e (conj Hs (conj He Hlog))) => _
              end).
      * vm_compute. reflexivity.
      * rewrite Hlog. injection Hs as <-. injection He as <-. reflexivity.
Defined.

(** ** The collector over a process lifetime *)

(** X5.  Scrapes never open or drop the session: after any number of
    scrapes the session pointer is nil exactly when it was nil at the
    start, so the guest-presence gauge of a process never changes. *)
Theorem session_presence_kept {L : Lib} (n : nat) (c c' : Collector) :
  lifetime n c c' -> (session c' = None <-> session c = None).
Proof.
  induction 1 as [c|n c c' st Hlife IH Hrun]; [reflexivity|].
  rewrite <- IH.
  replace st with (snd (run Collect c')) by now rewrite Hrun.
  apply Collect_session_kept.
Qed.

Lemma session_presence_kept_witness :
  session (self (snd (run Collect (fake.guest fake.healthy 0 0)))) = None
  <-> session (fake.guest fake.healthy 0 0) = None.
Proof.
  apply (@session_presence_kept fake.lib 1).
  apply (@lifetime_scrape fake.lib 0 (fake.guest fake.healthy 0 0)
           (fake.guest fake.healthy 0 0)
           (snd (run Collect (fake.guest fake.healthy 0 0)))).
  - apply lifetime_start.
  - vm_compute. reflexivity.
Defined.

(** X6.  When [NewSession] fails, [NewCollector] hands back the error
    together with a collector without session and with both counters at
    zero, whatever session value came with the error.  That collector
    stays as it is for the whole process: every scrape returns with only
    the guest-presence gauge at 0, and [Describe] sends only the
    guest-presence descriptor. *)
Theorem failed_session_publishes_only_isguest {L : Lib} (e : string) (n : nat)
  (c : Collector) :
  snd NewSession = Some e ->
  lifetime n (fst NewCollector) c ->
  snd NewCollector = Some e /\
  c = mkCollector None 0 0 /\
  run Collect c
  = (Return tt, mkFrame c [MustNewConstMetric isGuestDesc GaugeValue 0%float] []) /\
  run Describe c = (Return tt, mkFrame c [isGuestDesc] []).
Proof.
  intros He Hlife.
  assert (Hnew : NewCollector = (mkCollector None 0 0, Some e)).
  { unfold NewCollector. destruct NewSession as [s0 e0]. cbn [snd] in He. now subst e0. }
  rewrite Hnew in *. cbn [fst snd] in *.
  assert (Hstay : forall k c0 c1, lifetime k c0 c1 -> session c0 = None -> c1 = c0).
  { induction 1 as [c0|k c0 c1 st Hl IH Hrun]; intros Hnil; [reflexivity|].
    specialize (IH Hnil). subst c1.
    rewrite (Collect_nil_session c0 Hnil) in Hrun.
    injection Hrun as <-. reflexivity. }
  apply Hstay in Hlife; [|reflexivity]. subst c.
  split; [reflexivity|]. split; [reflexivity|]. split.
  - now apply Collect_nil_session.
  - now rewrite Describe_run.
Qed.

Lemma failed_session_publishes_only_isguest_witness :
  snd (@NewCollector fake.nolib) = Some "VMGuestLib_OpenHandle failed" /\
  fst (@NewCollector fake.nolib) = @mkCollector fake.nolib None 0 0 /\
  run Collect (fst (@NewCollector fake.nolib))
  = (Return tt,
     mkFrame (fst (@NewCollector fake.nolib))
       [MustNewConstMetric isGuestDesc GaugeValue 0%float] []) /\
  run Describe (fst (@NewCollector fake.nolib))
  = (Return tt, mkFrame (fst (@NewCollector fake.nolib)) [isGuestDesc] []).
Proof.
  apply (@failed_session_publishes_only_isguest fake.nolib
           "VMGuestLib_OpenHandle failed" 0).
  - reflexivity.
  - apply lifetime_start.
Defined.

(** X7.  After [n] scrapes on the collector [NewCollector] made, as long
    as [n] times the table size fits in an int, the event counter lies
    between 0 and [n] and the error counter between 0 and [n] times the
    table size: at most one event and one error per table entry are
    counted per scrape, and nothing is ever subtracted. *)
Theorem counters_bounded_by_scrapes {L : Lib} (n : nat) (c : Collector) :
  lifetime n (fst NewCollector) c ->
  Z.of_nat n * Z.of_nat (List.length metrics) <= max_int ->
  0 <= events c <= Z.of_nat n /\
  0 <= errors c <= Z.of_nat n * Z.of_nat (List.length metrics).
Proof.
  intros Hlife Hroom.
  assert (Hlen : Z.of_nat (List.length metrics) = 29) by reflexivity.
  assert (H0 : events (fst NewCollector) = 0 /\ errors (fst NewCollector) = 0).
  { unfold NewCollector. destruct NewSession as [s0 e0]. split; reflexivity. }
  destruct H0 as [Hev0 Her0].
  pose proof (lifetime_counters n _ c Hlife) as Hinv.
  rewrite Hev0, Her0, Hlen in Hinv. rewrite Hlen in *.
  apply Hinv; unfold min_int, max_int in *; lia.
Qed.

Lemma counters_bounded_by_scrapes_witness :
  0 <= events (self (snd (run Collect (fst (@NewCollector fake.lib))))) <= 1 /\
  0 <= errors (self (snd (run Collect (fst (@NewCollector fake.lib)))))
    <= 1 * Z.of_nat (List.length (@metrics fake.lib)).
Proof.
  apply (@counters_bounded_by_scrapes fake.lib 1).
  - apply (@lifetime_scrape fake.lib 0 (fst (@NewCollector fake.lib))
             (fst (@NewCollector fake.lib))
             (snd (run Collect (fst (@NewCollector fake.lib))))).
    + apply lifetime_start.
    + vm_compute. reflexivity.
  - vm_compute. discriminate.
Defined.

(** ** Getter failures *)

(** X8.  [metric.Get] fails exactly when the library call behind its
    getter fails and hands the library's error on unchanged; it leaves
    the session as the call left it, and on failure its value is 0,
    whatever value came with the error and whatever the multiplier. *)
Theorem metric_Get_failure {L : Lib} (m : metric) (s : Session) :
  match getter m with
  | getu32 f | getu64 f =>
      snd (fst (metric_Get m s)) = snd (fst (f s)) /\
      snd (metric_Get m s) = snd (f s) /\
      (snd (fst (f s)) <> None -> fst (fst (metric_Get m s)) = 0%float)
  end.
Proof.
  unfold metric_Get, getf64_Get.
  destruct (getter m) as [f|f]; destruct (f s) as [[u [e|]] s']; cbn [fst snd];
    repeat split; intros H; now elim H.
Qed.

Lemma metric_Get_failure_witness :
  snd (fst (@metric_Get fake.lib
              (@mbmetric fake.lib (@getu64 fake.lib (fake.get 5)) "HostMemUsed"
                 "total amount of consumed memory on the host")
              fake.one_broken))
  = Some "stat not available" /\
  fst (fst (@metric_Get fake.lib
              (@mbmetric fake.lib (@getu64 fake.lib (fake.get 5)) "HostMemUsed"
                 "total amount of consumed memory on the host")
              fake.one_broken))
  = 0%float.
Proof.
  pose proof (@metric_Get_failure fake.lib
                (@mbmetric fake.lib (@getu64 fake.lib (fake.get 5)) "HostMemUsed"
                   "total amount of consumed memory on the host")
                fake.one_broken) as H.
  cbn [getter mbmetric] in H. destruct H as (Herr & _ & Hzero).
  split.
  - rewrite Herr. reflexivity.
  - apply Hzero. discriminate.
Defined.

(** ** Collect against Describe *)

(** X9.  Every sample a scrape sends, however the scrape ends, carries a
    descriptor that [Describe] sends for the same collector. *)
Theorem collect_within_describe {L : Lib} (c : Collector) (x : Metric) :
  In x (ch (snd (run Collect c))) ->
  In (metric_desc x) (ch (snd (run Describe c))).
Proof.
  intros Hx. rewrite Describe_run. cbn [snd ch].
  destruct (session c) as [s|] eqn:Hs.
  - destruct (RefreshInfo s) as [[event [e|]] s1] eqn:Hr.
    + rewrite (Collect_refresh_failed c s s1 event e Hs Hr) in Hx. cbn [snd ch] in Hx.
      destruct Hx as [<-|[]]. now left.
    + rewrite (Collect_refreshed c s s1 event Hs Hr) in Hx. cbn [snd ch] in Hx.
      apply in_app_or in Hx. destruct Hx as [[<-|[]]|Hx]; [now left|].
      right. apply in_or_app. apply in_app_or in Hx.
      destruct Hx as [Hx|[<-|[<-|[]]]].
      * left. rewrite descs_map.
        apply (table_samples_descs_incl metrics (fst (readings metrics s1))).
        now apply in_map.
      * right. now left.
      * right. right. now left.
  - rewrite (Collect_nil_session c Hs) in Hx. cbn [snd ch] in Hx.
    destruct Hx as [<-|[]]. now left.
Qed.

Lemma collect_within_describe_witness :
  In isGuestDesc (ch (snd (run Describe (fake.guest fake.stale 0 0)))).
Proof.
  apply (@collect_within_describe fake.lib (fake.guest fake.stale 0 0)
           (MustNewConstMetric isGuestDesc GaugeValue 1%float)).
  vm_compute. now left.
Defined.

(** X10.  [Describe] sends no descriptor twice, and no two descriptors
    it sends share a name. *)
Theorem describe_no_duplicates {L : Lib} (c : Collector) :
  NoDup (ch (snd (run Describe c))) /\
  NoDup (map fqName (ch (snd (run Describe c)))).
Proof.
  rewrite Describe_run. cbn [snd ch].
  assert (Hnames : NoDup (map fqName (isGuestDesc :: descs ++ [eventsDesc; collecterrsDesc]))).
  { pose proof exported_names_NoDup as H. unfold exported_names in H.
    cbn [map]. rewrite map_app, descs_map, map_map. cbn [map desc_of NewDesc fqName].
    apply NoDup_cons_iff in H. destruct H as [H1 H].
    apply NoDup_cons_iff in H. destruct H as [H2 H].
    apply NoDup_cons_iff in H. destruct H as [H3 H].
    constructor.
    - intros Hin. apply in_app_or in Hin. destruct Hin as [Hin|[Heq|[Heq|[]]]];
        try discriminate.
      apply H1. right. right. exact Hin.
    - apply NoDup_app; [exact H| |].
      + constructor; [intros [Heq|[]]; discriminate|].
        constructor; [intros []|constructor].
      + intros x Hx [<-|[<-|[]]]; [apply H2; right|apply H3]; exact Hx. }
  destruct (session c).
  - split; [now apply (NoDup_map_inv fqName)|exact Hnames].
  - split; repeat constructor; intros [].
Qed.

(** X11.  Within one scrape no descriptor is used for two samples,
    however the scrape ends. *)
Theorem collect_no_duplicate_descs {L : Lib} (c : Collector) :
  NoDup (map metric_desc (ch (snd (run Collect c)))).
Proof.
  destruct (session c) as [s|] eqn:Hs.
  - destruct (RefreshInfo s) as [[event [e|]] s1] eqn:Hr.
    + rewrite (Collect_refresh_failed c s s1 event e Hs Hr). cbn [snd ch map].
      repeat constructor. intros [].
    + rewrite (Collect_refreshed c s s1 event Hs Hr). cbn [snd ch].
      rewrite !map_app.
      apply (framed_NoDup (map metric_desc (table_samples metrics (fst (readings metrics s1))))).
      * apply table_samples_descs_NoDup. rewrite <- descs_map. apply descs_NoDup.
      * rewrite descs_map. apply table_samples_descs_incl.
  - rewrite (Collect_nil_session c Hs). cbn [snd ch map].
    repeat constructor. intros [].
Qed.

(** ** Names and value types *)

(** X12.  Every descriptor [Describe] sends has a name that starts with
    the prefix vmwareguest_; for the table this holds whatever base name
    and unit an entry has. *)
Theorem exported_names_prefixed {L : Lib} :
  (forall m : metric, exists rest, prometheus_name m = ("vmwareguest_" ++ rest)%string) /\
  (forall (c : Collector) (d : Desc),
      In d (ch (snd (run Describe c))) ->
      exists rest, fqName d = ("vmwareguest_" ++ rest)%string).
Proof.
  split; [exact prometheus_name_prefix|].
  intros c d Hd. rewrite Describe_run in Hd. cbn [snd ch] in Hd.
  destruct Hd as [<-|Hd]; [now exists "isguest"|].
  destruct (session c); [|contradiction].
  apply in_app_or in Hd. destruct Hd as [Hd|[<-|[<-|[]]]].
  - rewrite descs_map in Hd. apply in_map_iff in Hd. destruct Hd as (m & <- & _).
    apply prometheus_name_prefix.
  - now exists "events".
  - now exists "collecterrors".
Qed.

Lemma exported_names_prefixed_witness :
  exists rest, fqName eventsDesc = ("vmwareguest_" ++ rest)%string.
Proof.
  apply (proj2 (@exported_names_prefixed fake.lib) (fake.guest fake.healthy 0 0)).
  vm_compute. do 30 right. now left.
Defined.

(** X13.  In the table an entry is a counter exactly when its unit is
    seconds, that is when it was built by [msmetric] from a millisecond
    getter with multiplier 0.001; every other entry is a gauge. *)
Theorem counters_are_seconds {L : Lib} (m : metric) :
  In m metrics ->
  (ValueType_of m = CounterValue <-> unit m = "seconds") /\
  (ValueType_of m = GaugeValue <-> unit m <> "seconds") /\
  (unit m = "seconds" <-> multiplier m = 0.001%float).
Proof.
  revert m. apply Forall_forall. unfold metrics.
  repeat (apply Forall_cons;
          [cbn [ValueType_of unit multiplier mbmetric mzmetric unmetric msmetric];
           repeat split; intros H; try reflexivity; try discriminate H;
           try (now elim H)|]).
  apply Forall_nil.
Qed.

Lemma counters_are_seconds_witness :
  ValueType_of
    (@msmetric fake.lib (@getu64 fake.lib (fake.get 9)) "CPUUsed"
       "time during which the virtual machine has been using the CPU.")
  = CounterValue.
Proof.
  apply (@counters_are_seconds fake.lib
           (@msmetric fake.lib (@getu64 fake.lib (fake.get 9)) "CPUUsed"
              "time during which the virtual machine has been using the CPU.")).
  - apply (nth_error_In _ 9). reflexivity.
  - reflexivity.
Defined.

(** X14.  [init] appends to [descs], in table order, one descriptor per
    table entry, with the entry's description as help text and without
    labels; so [descs] is as long as the table and [descs[i]] exists for
    every index the loop of [Collect] uses. *)
Theorem init_one_desc_per_entry {L : Lib} :
  (forall ds, init ds = ds ++ descs) /\
  List.length descs = List.length metrics /\
  map help descs = map desc metrics /\
  Forall (fun d => variableLabels d = [] /\ constLabels d = []) descs /\
  (forall i, (i < List.length metrics)%nat -> nth_error descs i <> None).
Proof.
  split; [|split; [|split; [|split]]].
  - intros ds. now rewrite init_appends, <- descs_map.
  - apply descs_length.
  - rewrite descs_map, map_map. reflexivity.
  - rewrite descs_map. apply Forall_forall. intros d Hd.
    apply in_map_iff in Hd. destruct Hd as (m & <- & _). split; reflexivity.
  - intros i Hi. apply nth_error_Some. now rewrite descs_length.
Qed.

Lemma init_one_desc_per_entry_witness :
  nth_error (@descs fake.lib) 28 <> None.
Proof.
  apply (proj2 (proj2 (proj2 (proj2 (@init_one_desc_per_entry fake.lib))))).
  vm_compute. reflexivity.
Defined.
